(** * LiveViewShaderTypes.h: the host/shader contract of the live-view renderer

    The header shared by the Metal shader and the host code declares two
    enumerations of binding indices and the vertex structure.  This file
    embeds those declarations, the C rules that give them their meaning
    (enumerator values, structure layout), and the consumer side the contract
    exists for (argument tables, viewport transform). *)

From Stdlib Require Import ZArith QArith Qcanon Lia Floats.SpecFloat.
From stdpp Require Import base numbers list finite gmap strings.

Local Open Scope Z_scope.

(** The first value recorded for a name in a table of declarations. *)
Fixpoint assoc (id : string) (tbl : list (string * Z)) : option Z :=
  match tbl with
  | [] => None
  | (k, v) :: tbl' => if decide (k = id) then Some v else assoc id tbl'
  end.

(** ** C enumerations *)

Module CEnum.

(** An enumerator as it is written in a declaration: the identifier and the
    optional [= constant] after it. *)
Record enumerator := Enumerator {
  enum_ident : string;
  enum_init : option Z
}.

(** C11 6.7.2.2: an enumerator with [=] takes that value, one without takes
    the previous value plus one, and the first one without takes 0. *)
Fixpoint enum_values_from (next : Z) (es : list enumerator) : list (string * Z) :=
  match es with
  | [] => []
  | e :: es' =>
      let v := default next (enum_init e) in
      (enum_ident e, v) :: enum_values_from (v + 1) es'
  end.

Definition enum_values (es : list enumerator) : list (string * Z) :=
  enum_values_from 0 es.

(** Enumerators are ordinary identifiers: all enumerations of a translation
    unit share one name space. *)
Definition constants (decls : list (list enumerator)) : list (string * Z) :=
  concat (map enum_values decls).

End CEnum.

(** ** The declarations of the header *)

(** [typedef enum LiveViewVertexInputIndex { ... }] as written. *)
Definition LiveViewVertexInputIndex_decl : list CEnum.enumerator :=
  [ CEnum.Enumerator "LiveViewVertexInputIndexVertices" (Some 0);
    CEnum.Enumerator "LiveViewVertexInputIndexViewportSize" (Some 1) ].

(** [typedef enum LiveViewTextureIndex { ... }] as written. *)
Definition LiveViewTextureIndex_decl : list CEnum.enumerator :=
  [ CEnum.Enumerator "LiveViewTextureIndexBaseColor" (Some 0) ].

(** Every enumeration constant the header brings into scope. *)
Definition header_constants : list (string * Z) :=
  CEnum.constants [LiveViewVertexInputIndex_decl; LiveViewTextureIndex_decl].

(** Evaluating an identifier against the header: [None] when the header does
    not declare it. *)
Definition eval_constant (id : string) : option Z :=
  assoc id header_constants.

(** The typed view of the two enumerations. *)
Inductive LiveViewVertexInputIndex :=
  | LiveViewVertexInputIndexVertices
  | LiveViewVertexInputIndexViewportSize.

Inductive LiveViewTextureIndex :=
  | LiveViewTextureIndexBaseColor.

Definition LiveViewVertexInputIndex_rawValue (i : LiveViewVertexInputIndex) : Z :=
  match i with
  | LiveViewVertexInputIndexVertices => 0
  | LiveViewVertexInputIndexViewportSize => 1
  end.

Definition LiveViewTextureIndex_rawValue (t : LiveViewTextureIndex) : Z :=
  match t with
  | LiveViewTextureIndexBaseColor => 0
  end.

Definition LiveViewVertexInputIndex_ident (i : LiveViewVertexInputIndex) : string :=
  match i with
  | LiveViewVertexInputIndexVertices => "LiveViewVertexInputIndexVertices"
  | LiveViewVertexInputIndexViewportSize => "LiveViewVertexInputIndexViewportSize"
  end.

Definition LiveViewTextureIndex_ident (t : LiveViewTextureIndex) : string :=
  match t with
  | LiveViewTextureIndexBaseColor => "LiveViewTextureIndexBaseColor"
  end.

(** A binding slot of the registry: a buffer index or a texture index.  The
    tag is the numbering space the index lives in. *)
Inductive BindingSlot :=
  | BufferSlot (i : LiveViewVertexInputIndex)
  | TextureSlot (t : LiveViewTextureIndex).

Definition slot_index (s : BindingSlot) : Z :=
  match s with
  | BufferSlot i => LiveViewVertexInputIndex_rawValue i
  | TextureSlot t => LiveViewTextureIndex_rawValue t
  end.

Definition slot_ident (s : BindingSlot) : string :=
  match s with
  | BufferSlot i => LiveViewVertexInputIndex_ident i
  | TextureSlot t => LiveViewTextureIndex_ident t
  end.

#[global] Instance LiveViewVertexInputIndex_eq_dec : EqDecision LiveViewVertexInputIndex.
Proof. solve_decision. Defined.

#[global] Instance LiveViewTextureIndex_eq_dec : EqDecision LiveViewTextureIndex.
Proof. solve_decision. Defined.

#[global] Instance BindingSlot_eq_dec : EqDecision BindingSlot.
Proof. solve_decision. Defined.

#[global, refine] Instance LiveViewVertexInputIndex_finite : Finite LiveViewVertexInputIndex :=
  {| enum := [LiveViewVertexInputIndexVertices; LiveViewVertexInputIndexViewportSize] |}.
Proof.
  - apply NoDup_cons; split; [|apply NoDup_singleton].
    intros Hin; apply list_elem_of_singleton in Hin; discriminate.
  - intros []; [left | right; left].
Defined.

#[global, refine] Instance LiveViewTextureIndex_finite : Finite LiveViewTextureIndex :=
  {| enum := [LiveViewTextureIndexBaseColor] |}.
Proof.
  - apply NoDup_singleton.
  - intros []; left.
Defined.

(** The numbering space a slot's index belongs to. *)
Inductive IndexSpace := BufferIndices | TextureIndices.

Definition slot_space (s : BindingSlot) : IndexSpace :=
  match s with
  | BufferSlot _ => BufferIndices
  | TextureSlot _ => TextureIndices
  end.

(** All slots of the registry, buffers first. *)
Definition all_slots : list BindingSlot :=
  map BufferSlot (enum LiveViewVertexInputIndex) ++ map TextureSlot (enum LiveViewTextureIndex).

(** ** C structure layout *)

Module CLayout.

(** What layout needs to know of a complete object type. *)
Record ctype := CType {
  sizeof : Z;
  alignof : Z
}.

Record member := Member {
  member_name : string;
  member_type : ctype
}.

(** The least multiple of [a] that is not below [n]. *)
Definition align_up (n a : Z) : Z := (n + a - 1) / a * a.

(** Members are placed in declaration order, each at the first offset past
    the previous member that its alignment allows. *)
Fixpoint member_offsets_from (pos : Z) (ms : list member) : list (string * Z) :=
  match ms with
  | [] => []
  | m :: ms' =>
      let off := align_up pos (alignof (member_type m)) in
      (member_name m, off) :: member_offsets_from (off + sizeof (member_type m)) ms'
  end.

Definition member_offsets (ms : list member) : list (string * Z) :=
  member_offsets_from 0 ms.

(** The offset just past the last member. *)
Fixpoint members_end_from (pos : Z) (ms : list member) : Z :=
  match ms with
  | [] => pos
  | m :: ms' =>
      members_end_from (align_up pos (alignof (member_type m)) + sizeof (member_type m)) ms'
  end.

Definition struct_alignof (ms : list member) : Z :=
  foldr (fun m a => Z.max (alignof (member_type m)) a) 1 ms.

(** [sizeof] of the structure: the end of the members rounded up to the
    structure's alignment.  It is also the stride of an array of it. *)
Definition struct_sizeof (ms : list member) : Z :=
  align_up (members_end_from 0 ms) (struct_alignof ms).

(** Bytes of the structure that belong to no member. *)
Definition struct_padding (ms : list member) : Z :=
  struct_sizeof ms - foldr (fun m n => sizeof (member_type m) + n) 0 ms.

Definition struct_type (ms : list member) : ctype :=
  CType (struct_sizeof ms) (struct_alignof ms).

(** Array elements follow each other without gaps: element [k] of an array of
    [t] starts [k * sizeof t] bytes into the array. *)
Definition array_stride (t : ctype) : Z := sizeof t.

(** [float]: IEEE binary32, four bytes. *)
Definition float : ctype := CType 4 4.

(** A vector of [n] lanes of [elt] whose alignment the vector library picks. *)
Definition vector (n : Z) (elt : ctype) (align : Z) : ctype :=
  CType (n * sizeof elt) align.

End CLayout.

(** ** The vertex structure *)

Section Vertex.

(** The scalar the lanes hold ([float] in the header). *)
Context {scalar : Type}.

(** Modelled from the spec: [vector_float2] is declared in <simd/simd.h>,
    which the header only includes; the spec calls it "a 2-component
    floating-point vector".  Two lanes, [x] then [y]. *)
Record vector_float2 := Vector_float2 {
  vx : scalar;
  vy : scalar
}.

(** [LiveViewVertex] as declared: [position], then [textureCoordinate]. *)
Record LiveViewVertex := MkLiveViewVertex {
  position : vector_float2;
  textureCoordinate : vector_float2
}.

End Vertex.

Arguments vector_float2 : clear implicits.
Arguments LiveViewVertex : clear implicits.

#[global] Instance vector_float2_eq_dec `{EqDecision scalar} : EqDecision (vector_float2 scalar).
Proof. solve_decision. Defined.

#[global] Instance LiveViewVertex_eq_dec `{EqDecision scalar} : EqDecision (LiveViewVertex scalar).
Proof. solve_decision. Defined.

Section VertexLayout.

(** The alignment <simd/simd.h> gives [vector_float2]; the header only
    includes that file, so the alignment is a parameter here. *)
Variable float2_align : Z.

Definition vector_float2_ctype : CLayout.ctype :=
  CLayout.vector 2 CLayout.float float2_align.

(** The members of [LiveViewVertex] in declaration order. *)
Definition LiveViewVertex_members : list CLayout.member :=
  [ CLayout.Member "position" vector_float2_ctype;
    CLayout.Member "textureCoordinate" vector_float2_ctype ].

Definition LiveViewVertex_offset (name : string) : Z :=
  default 0 (assoc name (CLayout.member_offsets LiveViewVertex_members)).

Context {scalar : Type}.

(** The lanes of a vector placed at [base], each with its byte offset. *)
Definition vector_float2_image (base : Z) (v : vector_float2 scalar) : list (Z * scalar) :=
  [ (base, vx v); (base + CLayout.sizeof CLayout.float, vy v) ].

(** The scalars of one vertex with the byte offsets they are stored at. *)
Definition LiveViewVertex_image (v : LiveViewVertex scalar) : list (Z * scalar) :=
  vector_float2_image (LiveViewVertex_offset "position") (position v)
  ++ vector_float2_image (LiveViewVertex_offset "textureCoordinate") (textureCoordinate v).

End VertexLayout.

(** ** The consumers of the contract *)

Section ArgumentTables.

Context {buffer texture : Type}.

(** Modelled from the spec: the render pass that binds resources is not under
    src/.  "Textures and buffers are bound through different APIs and may
    reuse index 0 without collision": the encoder keeps one table of buffers
    and one of textures, each indexed by its own slot numbers. *)
Record ArgumentTables := MkArgumentTables {
  buffers : gmap Z buffer;
  textures : gmap Z texture
}.

(** Modelled from the spec: the "bind-buffer-at-index" call. *)
Definition bind_buffer_at_index (b : buffer) (index : Z) (st : ArgumentTables) : ArgumentTables :=
  MkArgumentTables (<[index := b]> (buffers st)) (textures st).

(** Modelled from the spec: the "bind-texture-at-index" call. *)
Definition bind_texture_at_index (t : texture) (index : Z) (st : ArgumentTables) : ArgumentTables :=
  MkArgumentTables (buffers st) (<[index := t]> (textures st)).

(** Modelled from the spec: what a shader input declared at a slot reads. *)
Definition buffer_at (i : LiveViewVertexInputIndex) (st : ArgumentTables) : option buffer :=
  buffers st !! LiveViewVertexInputIndex_rawValue i.

Definition texture_at (t : LiveViewTextureIndex) (st : ArgumentTables) : option texture :=
  textures st !! LiveViewTextureIndex_rawValue t.

(** Modelled from the spec: the binding calls host code issues, by the named
    constants "rather than literal numbers". *)
Inductive Command :=
  | BindBuffer (i : LiveViewVertexInputIndex) (b : buffer)
  | BindTexture (t : LiveViewTextureIndex) (x : texture).

(** Modelled from the spec: each call writes the table of its kind at the
    index of the named constant. *)
Definition exec (st : ArgumentTables) (c : Command) : ArgumentTables :=
  match c with
  | BindBuffer i b => bind_buffer_at_index b (LiveViewVertexInputIndex_rawValue i) st
  | BindTexture t x => bind_texture_at_index x (LiveViewTextureIndex_rawValue t) st
  end.

Definition run (cmds : list Command) (st : ArgumentTables) : ArgumentTables :=
  foldl exec st cmds.

Definition rebinds_buffer (i : LiveViewVertexInputIndex) (c : Command) : Prop :=
  match c with
  | BindBuffer j _ => j = i
  | BindTexture _ _ => False
  end.

Definition rebinds_texture (t : LiveViewTextureIndex) (c : Command) : Prop :=
  match c with
  | BindBuffer _ _ => False
  | BindTexture u _ => u = t
  end.

(** Modelled from the spec: what host code binds for one frame: the vertex
    array at the "vertices" slot, the viewport size at the "viewport size"
    slot, the camera frame at the "base color" slot. *)
Definition frame_bindings (vertices viewportSize : buffer) (frame : texture) : list Command :=
  [ BindBuffer LiveViewVertexInputIndexVertices vertices;
    BindBuffer LiveViewVertexInputIndexViewportSize viewportSize;
    BindTexture LiveViewTextureIndexBaseColor frame ].

End ArgumentTables.

Arguments ArgumentTables : clear implicits.
Arguments Command : clear implicits.

Local Open Scope Qc_scope.

Section Transform.

Context {scalar : Type} (div : scalar -> scalar -> scalar) (two : scalar).

(** Modelled from the spec: the vertex shader is not under src/.  "Normalized
    device coordinate = pixel-space position divided by half the viewport
    size, per axis".  The formula is written once, over the division and the
    constant 2 of the scalar it is computed in. *)
Definition normalizedDeviceCoordinate_in
    (viewportSize pixelSpacePosition : vector_float2 scalar) : vector_float2 scalar :=
  Vector_float2 (div (vx pixelSpacePosition) (div (vx viewportSize) two))
                (div (vy pixelSpacePosition) (div (vy viewportSize) two)).

End Transform.

(** Modelled from the spec: the transform in exact rational arithmetic, the
    formula of the spec without the rounding of [float]. *)
Definition normalizedDeviceCoordinate
    (viewportSize pixelSpacePosition : vector_float2 Qc) : vector_float2 Qc :=
  normalizedDeviceCoordinate_in Qcdiv 2 viewportSize pixelSpacePosition.

Definition float2 (a b : Z) : vector_float2 Qc :=
  Vector_float2 (Qc_of_Z a) (Qc_of_Z b).

(** Modelled from the spec: "the shader reads vertices, transforms pixel-space
    position into normalized device coordinates using the viewport size, and
    samples the bound texture at the given coordinate": the position and the
    sampling coordinate one vertex yields. *)
Definition vertex_stage (viewportSize : vector_float2 Qc) (v : LiveViewVertex Qc)
    : vector_float2 Qc * vector_float2 Qc :=
  (normalizedDeviceCoordinate viewportSize (position v), textureCoordinate v).

(** Modelled from the spec: "the four corners at (±halfWidth, ±halfHeight) in
    pixel space paired with texture coordinates (0,0)–(1,1)", in the order the
    spec lists the texture coordinates. *)
Definition quad_corners (halfWidth halfHeight : Qc) : list (LiveViewVertex Qc) :=
  [ MkLiveViewVertex (Vector_float2 (- halfWidth) (- halfHeight)) (float2 0 0);
    MkLiveViewVertex (Vector_float2 halfWidth (- halfHeight)) (float2 1 0);
    MkLiveViewVertex (Vector_float2 (- halfWidth) halfHeight) (float2 0 1);
    MkLiveViewVertex (Vector_float2 halfWidth halfHeight) (float2 1 1) ].

(** Modelled from the spec: the quad "that exactly covers the intended
    drawable region", recomputed from the viewport it is drawn into. *)
Definition full_viewport_quad (viewportSize : vector_float2 Qc) : list (LiveViewVertex Qc) :=
  quad_corners (vx viewportSize / 2) (vy viewportSize / 2).

(** The corners of the drawable in normalized device coordinates, and of the
    source frame in texture coordinates. *)
Definition drawable_corners : list (vector_float2 Qc) :=
  [ float2 (-1) (-1); float2 1 (-1); float2 (-1) 1; float2 1 1 ].

Definition texture_corners : list (vector_float2 Qc) :=
  [ float2 0 0; float2 1 0; float2 0 1; float2 1 1 ].



(** The corners of a quad after the viewport transform. *)
Definition rendered_corners (viewportSize : vector_float2 Qc) (quad : list (LiveViewVertex Qc))
    : list (vector_float2 Qc) :=
  map (fun v => normalizedDeviceCoordinate viewportSize (position v)) quad.

Local Close Scope Qc_scope.

(** ** The transform in IEEE binary32 *)

Module Binary32.

#[global] Instance spec_float_eq_dec : EqDecision spec_float.
Proof. solve_decision. Defined.

(** [float] as the shader computes with it: 24 bits of precision, exponents
    up to 128, round to nearest even. *)
Definition prec : Z := 24.
Definition emax : Z := 128.

Definition of_Z (z : Z) : spec_float := binary_normalize prec emax z 0 false.

Definition div (a b : spec_float) : spec_float := SFdiv prec emax a b.

Definition float2 (a b : Z) : vector_float2 spec_float :=
  Vector_float2 (of_Z a) (of_Z b).

(** Modelled from the spec: the transform as the shader computes it, every
    division rounded to binary32. *)
Definition normalizedDeviceCoordinate
    (viewportSize pixelSpacePosition : vector_float2 spec_float) : vector_float2 spec_float :=
  normalizedDeviceCoordinate_in div (of_Z 2) viewportSize pixelSpacePosition.

(** Half of an extent, as the shader computes it. *)
Definition half (w : Z) : spec_float := div (of_Z w) (of_Z 2).

(** Along one axis of extent [w]: the coordinate [w/2] lands on 1 and
    [-w/2] on -1. *)
Definition axis_lands (w : Z) : bool :=
  bool_decide (div (half w) (half w) = of_Z 1)
  && bool_decide (div (SFopp (half w)) (half w) = of_Z (-1)).

(** The largest extent the exhaustive check runs over, in pixels. *)
Definition max_extent : Z := 4096.

End Binary32.

(** ** Arrays of vertices *)

Section VertexArray.

(** The alignment of [vector_float2] on the side that writes or reads. *)
Variable float2_align : Z.

Context {scalar : Type}.

(** The distance in bytes from one element of a [LiveViewVertex] array to the
    next. *)
Definition LiveViewVertex_stride : Z :=
  CLayout.array_stride (CLayout.struct_type (LiveViewVertex_members float2_align)).

(** One vertex stored at byte [base]. *)
Definition LiveViewVertex_image_at (base : Z) (v : LiveViewVertex scalar) : list (Z * scalar) :=
  map (fun lane => (base + fst lane, snd lane)) (LiveViewVertex_image float2_align v).

(** The vertex array as the host stores it: element after element, from
    [base] on. *)
Fixpoint vertexArray_image_from (base : Z) (vs : list (LiveViewVertex scalar))
    : list (Z * scalar) :=
  match vs with
  | [] => []
  | v :: vs' =>
      LiveViewVertex_image_at base v
      ++ vertexArray_image_from (base + LiveViewVertex_stride) vs'
  end.

Definition vertexArray_image (vs : list (LiveViewVertex scalar)) : list (Z * scalar) :=
  vertexArray_image_from 0 vs.

(** Memory as the shader sees it: the scalar that starts at each byte offset.
    It is total: next to the array it holds whatever else is stored there. *)
Definition store_lane (mem : Z -> scalar) (lane : Z * scalar) : Z -> scalar :=
  fun off => if decide (off = fst lane) then snd lane else mem off.

(** Storing lanes into memory, one after the other. *)
Definition store_lanes (img : list (Z * scalar)) (mem : Z -> scalar) : Z -> scalar :=
  foldl store_lane mem img.

(** Loading a [vector_float2] at [base]: lane [x], then lane [y]. *)
Definition vector_float2_load (base : Z) (mem : Z -> scalar) : vector_float2 scalar :=
  Vector_float2 (mem base) (mem (base + CLayout.sizeof CLayout.float)).

(** Loading a [LiveViewVertex] at [base]: each member at its offset. *)
Definition LiveViewVertex_load (base : Z) (mem : Z -> scalar) : LiveViewVertex scalar :=
  MkLiveViewVertex
    (vector_float2_load (base + LiveViewVertex_offset float2_align "position") mem)
    (vector_float2_load (base + LiveViewVertex_offset float2_align "textureCoordinate") mem).

(** [vertexArray[vertexID]] for an array that starts at [base], as the shader
    reads it: the address is computed from the index and loaded, with no
    check of the index against the length of the array. *)
Definition vertexArray_load (mem : Z -> scalar) (base vertexID : Z) : LiveViewVertex scalar :=
  LiveViewVertex_load (base + vertexID * LiveViewVertex_stride) mem.

End VertexArray.

(** ** The include guard *)

Module Preprocessor.

(** What a translation unit has accumulated: the macros defined so far, the
    enumeration constants and the type names declared so far. *)
Record unit_state := UnitState {
  macros : gset string;
  constants : list (string * Z);
  typedefs : list string
}.

Definition guard : string := "LiveViewShaderTypes_h".

Section Include.

(** What [#include <simd/simd.h>] does to the unit; that file is not part of
    the header. *)
Variable include_simd : unit_state -> unit_state.

(** [#include "LiveViewShaderTypes.h"]: nothing when the guard is defined;
    otherwise the guard is defined, <simd/simd.h> is included, and the two
    enumerations and the structure are declared. *)
Definition include_LiveViewShaderTypes (st : unit_state) : unit_state :=
  if decide (guard ∈ macros st) then st
  else
    let guarded := UnitState ({[guard]} ∪ macros st) (constants st) (typedefs st) in
    let st' := include_simd guarded in
    UnitState (macros st')
              (constants st' ++ header_constants)
              (typedefs st' ++ ["LiveViewVertexInputIndex"; "LiveViewTextureIndex";
                                "LiveViewVertex"]%string).

End Include.

End Preprocessor.

(** Closes an equation between two concrete rationals. *)
Ltac qc_eval := apply Qc_is_canon; vm_compute; reflexivity.

(** * Properties *)

(** ** Enumerations *)

Lemma enum_values_from_idents (next : Z) (es : list CEnum.enumerator) :
  map fst (CEnum.enum_values_from next es) = map CEnum.enum_ident es.
Proof.
  revert next. induction es as [|e es IH]; intros next; simpl.
  - reflexivity.
  - f_equal. apply IH.
Qed.

(** Only an enumerator written without a value reads the counter: where the
    first enumerator has a written value, the values of the whole declaration
    do not depend on the counter it is read with. *)
Lemma enum_values_from_explicit (e : CEnum.enumerator) (es : list CEnum.enumerator) :
  is_Some (CEnum.enum_init e) ->
  forall n m : Z, CEnum.enum_values_from n (e :: es) = CEnum.enum_values_from m (e :: es).
Proof.
  intros [v Hv] n m. simpl. rewrite Hv. reflexivity.
Qed.

Lemma assoc_Some_elem (id : string) (tbl : list (string * Z)) (v : Z) :
  assoc id tbl = Some v -> (id, v) ∈ tbl.
Proof.
  induction tbl as [|[k w] tbl IH]; simpl.
  - discriminate.
  - destruct (decide (k = id)) as [->|_].
    + intros [= ->]. left.
    + intros H. right. auto.
Qed.

Lemma assoc_None_iff (id : string) (tbl : list (string * Z)) :
  assoc id tbl = None <-> id ∉ map fst tbl.
Proof.
  induction tbl as [|[k w] tbl IH]; simpl.
  - split; [intros _; apply not_elem_of_nil | reflexivity].
  - rewrite not_elem_of_cons. destruct (decide (k = id)) as [->|Hne].
    + split; [discriminate | intros [? _]; congruence].
    + rewrite IH. split; [intros ?; split; congruence | intros [_ ?]; assumption].
Qed.

Lemma header_constants_table :
  header_constants =
    [ ("LiveViewVertexInputIndexVertices"%string, 0);
      ("LiveViewVertexInputIndexViewportSize"%string, 1);
      ("LiveViewTextureIndexBaseColor"%string, 0) ].
Proof. reflexivity. Qed.

(** The typed view agrees with the declarations: a slot's identifier
    evaluates to the slot's index. *)
Lemma eval_constant_slot (s : BindingSlot) :
  eval_constant (slot_ident s) = Some (slot_index s).
Proof. destruct s as [[]|[]]; reflexivity. Qed.

Lemma slot_ident_declared (s : BindingSlot) :
  slot_ident s ∈ map fst header_constants.
Proof.
  destruct (decide (slot_ident s ∈ map fst header_constants)) as [Hin|Hout]; [exact Hin|].
  apply assoc_None_iff in Hout. fold (eval_constant (slot_ident s)) in Hout.
  rewrite eval_constant_slot in Hout. discriminate.
Qed.

Lemma all_slots_complete (s : BindingSlot) : s ∈ all_slots.
Proof.
  unfold all_slots. apply elem_of_app. destruct s as [i|t].
  - left. apply list_elem_of_fmap_2, elem_of_enum.
  - right. apply list_elem_of_fmap_2, elem_of_enum.
Qed.

Lemma LiveViewVertexInputIndex_rawValue_inj :
  Inj (=) (=) LiveViewVertexInputIndex_rawValue.
Proof. intros [] [] H; simpl in H; congruence. Qed.

(** ** Layout arithmetic *)

Lemma align_up_multiple (n a : Z) :
  0 < a -> (a | n) -> CLayout.align_up n a = n.
Proof.
  intros Ha [k ->]. unfold CLayout.align_up.
  replace (k * a + a - 1) with (a - 1 + k * a) by lia.
  rewrite Z.div_add by lia.
  rewrite (Z.div_small (a - 1) a) by lia. lia.
Qed.

(** ** The vertex structure *)

(** C1: [LiveViewVertex] has exactly the two members [position] and
    [textureCoordinate], in that order, each a vector of two floats; they sit
    at byte offsets 0 and 8 with no padding between or after them, so the size
    of the structure and the stride of the vertex array are 16 bytes, four
    floats, stored in the order position.x, position.y, texCoord.x,
    texCoord.y.  This holds for every alignment of [vector_float2] that is
    positive and divides its size. *)
Theorem LiveViewVertex_layout (float2_align : Z) {scalar : Type} (v : LiveViewVertex scalar) :
  0 < float2_align ->
  (float2_align | 8) ->
  let members := LiveViewVertex_members float2_align in
  map CLayout.member_name members = ["position"; "textureCoordinate"]%string
  /\ Forall (fun m => CLayout.sizeof (CLayout.member_type m) = 2 * CLayout.sizeof CLayout.float) members
  /\ CLayout.member_offsets members = [("position"%string, 0); ("textureCoordinate"%string, 8)]
  /\ CLayout.struct_sizeof members = 4 * CLayout.sizeof CLayout.float
  /\ CLayout.array_stride (CLayout.struct_type members) = 16
  /\ CLayout.struct_padding members = 0
  /\ LiveViewVertex_image float2_align v =
       [ (0, vx (position v)); (4, vy (position v));
         (8, vx (textureCoordinate v)); (12, vy (textureCoordinate v)) ].
Proof.
  intros Hpos Hdiv members.
  assert (H0 : CLayout.align_up 0 float2_align = 0)
    by (apply align_up_multiple; [assumption | apply Z.divide_0_r]).
  assert (H8 : CLayout.align_up 8 float2_align = 8)
    by (apply align_up_multiple; assumption).
  assert (H16 : CLayout.align_up 16 float2_align = 16).
  { apply align_up_multiple; [assumption|].
    apply Z.divide_trans with 8; [assumption | exists 2; reflexivity]. }
  assert (Halign : CLayout.struct_alignof members = float2_align).
  { unfold members, LiveViewVertex_members, CLayout.struct_alignof. simpl. lia. }
  assert (Hoffs : CLayout.member_offsets members =
                  [("position"%string, 0); ("textureCoordinate"%string, 8)]).
  { unfold members, CLayout.member_offsets, LiveViewVertex_members. simpl.
    rewrite H0. change (0 + 2 * 4) with 8. rewrite H8. reflexivity. }
  assert (Hsize : CLayout.struct_sizeof members = 16).
  { unfold CLayout.struct_sizeof. rewrite Halign.
    unfold members, LiveViewVertex_members. simpl.
    rewrite H0. change (0 + 2 * 4) with 8. rewrite H8. exact H16. }
  repeat split.
  - repeat constructor.
  - exact Hoffs.
  - rewrite Hsize. reflexivity.
  - unfold CLayout.array_stride. simpl. exact Hsize.
  - unfold CLayout.struct_padding. rewrite Hsize. reflexivity.
  - unfold LiveViewVertex_image, LiveViewVertex_offset. fold members.
    rewrite Hoffs. reflexivity.
Qed.

Lemma LiveViewVertex_layout_witness :
  CLayout.member_offsets (LiveViewVertex_members 8) =
    [("position"%string, 0); ("textureCoordinate"%string, 8)]
  /\ CLayout.struct_sizeof (LiveViewVertex_members 8) = 16
  /\ LiveViewVertex_image 8 (MkLiveViewVertex (Vector_float2 400 300) (Vector_float2 1 1)) =
       [ (0, 400); (4, 300); (8, 1); (12, 1) ].
Proof.
  destruct (LiveViewVertex_layout 8 (MkLiveViewVertex (Vector_float2 400 300) (Vector_float2 1 1)))
    as (_ & _ & Hoffs & Hsize & _ & _ & Himage).
  - lia.
  - exists 1. reflexivity.
  - split; [exact Hoffs | split; [exact Hsize | exact Himage]].
Defined.

(** ** Argument tables *)

Section TableLemmas.

Context {buffer texture : Type}.

Implicit Types (st : ArgumentTables buffer texture) (c : Command buffer texture).

Lemma exec_keeps_buffer st c (i : LiveViewVertexInputIndex) :
  ~ rebinds_buffer i c -> buffer_at i (exec st c) = buffer_at i st.
Proof.
  destruct c as [j b|t x]; simpl; intros Hfree.
  - unfold buffer_at. simpl. apply lookup_insert_ne.
    intros Heq. apply Hfree. apply LiveViewVertexInputIndex_rawValue_inj, Heq.
  - reflexivity.
Qed.

Lemma exec_keeps_texture st c (t : LiveViewTextureIndex) :
  ~ rebinds_texture t c -> texture_at t (exec st c) = texture_at t st.
Proof.
  destruct c as [j b|u x]; simpl; intros Hfree.
  - reflexivity.
  - destruct t, u. contradiction Hfree. reflexivity.
Qed.

(** What is bound at a buffer slot stays there through every later command
    that does not bind that slot again. *)
Lemma buffer_binding_persists (cmds : list (Command buffer texture)) st
    (i : LiveViewVertexInputIndex) :
  Forall (fun c => ~ rebinds_buffer i c) cmds ->
  buffer_at i (run cmds st) = buffer_at i st.
Proof.
  intros Hfree. revert st.
  induction Hfree as [|c cmds Hc _ IH]; intros st.
  - reflexivity.
  - unfold run in *. simpl. rewrite IH. apply exec_keeps_buffer, Hc.
Qed.

Lemma texture_binding_persists (cmds : list (Command buffer texture)) st
    (t : LiveViewTextureIndex) :
  Forall (fun c => ~ rebinds_texture t c) cmds ->
  texture_at t (run cmds st) = texture_at t st.
Proof.
  intros Hfree. revert st.
  induction Hfree as [|c cmds Hc _ IH]; intros st.
  - reflexivity.
  - unfold run in *. simpl. rewrite IH. apply exec_keeps_texture, Hc.
Qed.

(** After the bindings of one frame each slot holds its own resource. *)
Lemma frame_bindings_read_back st (vertices viewportSize : buffer) (frame : texture) :
  let st' := run (frame_bindings vertices viewportSize frame) st in
  buffer_at LiveViewVertexInputIndexVertices st' = Some vertices
  /\ buffer_at LiveViewVertexInputIndexViewportSize st' = Some viewportSize
  /\ texture_at LiveViewTextureIndexBaseColor st' = Some frame.
Proof.
  unfold run, frame_bindings, buffer_at, texture_at. simpl. repeat split.
  - rewrite lookup_insert_ne by discriminate. apply lookup_insert_eq.
  - apply lookup_insert_eq.
  - apply lookup_insert_eq.
Qed.

End TableLemmas.

(** ** The binding-slot registry *)

(** C3: the two buffer slots are distinct: the index of [Vertices] is not the
    index of [ViewportSize], whether read off the typed enumeration or
    evaluated from the declarations; indeed no two buffer slots share an
    index. *)
Theorem buffer_slots_distinct :
  LiveViewVertexInputIndex_rawValue LiveViewVertexInputIndexVertices
    <> LiveViewVertexInputIndex_rawValue LiveViewVertexInputIndexViewportSize
  /\ eval_constant "LiveViewVertexInputIndexVertices"
       <> eval_constant "LiveViewVertexInputIndexViewportSize"
  /\ (forall i j : LiveViewVertexInputIndex,
        i <> j -> LiveViewVertexInputIndex_rawValue i <> LiveViewVertexInputIndex_rawValue j).
Proof.
  split; [|split].
  - simpl. lia.
  - pose proof (eval_constant_slot (BufferSlot LiveViewVertexInputIndexVertices)) as Hv.
    pose proof (eval_constant_slot (BufferSlot LiveViewVertexInputIndexViewportSize)) as Hs.
    simpl in Hv, Hs. rewrite Hv, Hs. discriminate.
  - intros i j Hne Heq. apply Hne. apply LiveViewVertexInputIndex_rawValue_inj, Heq.
Qed.

(** C5: texture slots are numbered apart from buffer slots.  A slot is
    identified by its numbering space together with its index: within one
    space no two slots share an index, and across the two spaces they may:
    [BaseColor] and [Vertices] are both index 0 and are different slots.  They
    do not collide: binding a texture never changes the buffer table nor the
    other way round, and after the bindings of one frame the buffer read at
    [Vertices] and the texture read at [BaseColor] are each the resource
    bound there. *)
Theorem texture_slots_numbered_apart {buffer texture : Type} :
  LiveViewTextureIndex_rawValue LiveViewTextureIndexBaseColor
    = LiveViewVertexInputIndex_rawValue LiveViewVertexInputIndexVertices
  /\ slot_space (TextureSlot LiveViewTextureIndexBaseColor)
       <> slot_space (BufferSlot LiveViewVertexInputIndexVertices)
  /\ TextureSlot LiveViewTextureIndexBaseColor <> BufferSlot LiveViewVertexInputIndexVertices
  /\ (forall s1 s2 : BindingSlot,
        slot_space s1 = slot_space s2 -> slot_index s1 = slot_index s2 -> s1 = s2)
  /\ (forall (st : ArgumentTables buffer texture) (b : buffer) (t : texture) (i j : Z),
        buffers (bind_texture_at_index t j st) = buffers st
        /\ textures (bind_buffer_at_index b i st) = textures st)
  /\ (forall (st : ArgumentTables buffer texture) (vertices viewportSize : buffer) (frame : texture),
        buffer_at LiveViewVertexInputIndexVertices
          (run (frame_bindings vertices viewportSize frame) st) = Some vertices
        /\ texture_at LiveViewTextureIndexBaseColor
          (run (frame_bindings vertices viewportSize frame) st) = Some frame).
Proof.
  split; [reflexivity|]. split; [discriminate|]. split; [discriminate|].
  split; [|split].
  - intros [i|t] [j|u] Hspace Hindex; try discriminate Hspace.
    + f_equal. apply LiveViewVertexInputIndex_rawValue_inj, Hindex.
    + destruct t, u. reflexivity.
  - intros st b t i j. split; reflexivity.
  - intros st vertices viewportSize frame.
    destruct (frame_bindings_read_back st vertices viewportSize frame) as (Hv & _ & Hf).
    split; assumption.
Qed.

(** C7: the buffer enumeration has exactly the two values [Vertices] and
    [ViewportSize], the texture enumeration exactly the one value
    [BaseColor], and the header declares no other enumeration constant. *)
Theorem slot_enumerations_exact :
  (forall i : LiveViewVertexInputIndex,
     i = LiveViewVertexInputIndexVertices \/ i = LiveViewVertexInputIndexViewportSize)
  /\ card LiveViewVertexInputIndex = 2%nat
  /\ (forall t : LiveViewTextureIndex, t = LiveViewTextureIndexBaseColor)
  /\ card LiveViewTextureIndex = 1%nat
  /\ map CEnum.enum_ident LiveViewVertexInputIndex_decl
       = map LiveViewVertexInputIndex_ident (enum LiveViewVertexInputIndex)
  /\ map CEnum.enum_ident LiveViewTextureIndex_decl
       = map LiveViewTextureIndex_ident (enum LiveViewTextureIndex)
  /\ map fst header_constants = map slot_ident all_slots
  /\ (forall s : BindingSlot, s ∈ all_slots)
  /\ (forall id : string, is_Some (eval_constant id) <-> exists s : BindingSlot, id = slot_ident s).
Proof.
  repeat split.
  - intros []; [left | right]; reflexivity.
  - intros []; reflexivity.
  - apply all_slots_complete.
  - intros [v Hv]. apply assoc_Some_elem in Hv.
    rewrite header_constants_table in Hv.
    repeat (apply elem_of_cons in Hv; destruct Hv as [[= -> ->]|Hv]).
    + exists (BufferSlot LiveViewVertexInputIndexVertices). reflexivity.
    + exists (BufferSlot LiveViewVertexInputIndexViewportSize). reflexivity.
    + exists (TextureSlot LiveViewTextureIndexBaseColor). reflexivity.
    + apply elem_of_nil in Hv. contradiction.
  - intros [s ->]. rewrite eval_constant_slot. eexists. reflexivity.
Qed.

(** C8: every slot constant is a small non-negative integer: 0 or 1.  Every
    enumerator is written with its value, so the values do not depend on the
    enumerators' places in the declaration.  The index is a function of the
    enumerator alone, so a slot names the same table entry throughout: what is
    bound at a slot is read back at that slot after any run of commands that
    does not bind the slot again. *)
Theorem slot_indices_small_and_stable {buffer texture : Type} :
  (forall s : BindingSlot, 0 <= slot_index s <= 1)
  /\ Forall (fun kv => 0 <= snd kv <= 1) header_constants
  /\ (forall next : Z,
        CEnum.enum_values_from next LiveViewVertexInputIndex_decl
          = CEnum.enum_values LiveViewVertexInputIndex_decl
        /\ CEnum.enum_values_from next LiveViewTextureIndex_decl
          = CEnum.enum_values LiveViewTextureIndex_decl)
  /\ (forall (cmds : list (Command buffer texture)) (st : ArgumentTables buffer texture)
             (i : LiveViewVertexInputIndex) (b : buffer),
        Forall (fun c => ~ rebinds_buffer i c) cmds ->
        buffer_at i (run (BindBuffer i b :: cmds) st) = Some b)
  /\ (forall (cmds : list (Command buffer texture)) (st : ArgumentTables buffer texture)
             (t : LiveViewTextureIndex) (x : texture),
        Forall (fun c => ~ rebinds_texture t c) cmds ->
        texture_at t (run (BindTexture t x :: cmds) st) = Some x).
Proof.
  split; [|split; [|split; [|split]]].
  - intros [[]|[]]; simpl; lia.
  - rewrite header_constants_table. repeat constructor; simpl; lia.
  - intros next. unfold CEnum.enum_values.
    split; apply enum_values_from_explicit; eexists; reflexivity.
  - intros cmds st i b Hfree. unfold run. simpl.
    fold (run cmds (bind_buffer_at_index b (LiveViewVertexInputIndex_rawValue i) st)).
    rewrite (buffer_binding_persists cmds _ i Hfree). apply lookup_insert_eq.
  - intros cmds st t x Hfree. unfold run. simpl.
    fold (run cmds (bind_texture_at_index x (LiveViewTextureIndex_rawValue t) st)).
    rewrite (texture_binding_persists cmds _ t Hfree). apply lookup_insert_eq.
Qed.

(** C9: evaluating a slot constant cannot fail: for every slot the header
    declares its identifier, exactly once, and evaluating the identifier
    yields the slot's index; no state enters the evaluation. *)
Theorem slot_evaluation_total :
  (forall s : BindingSlot, exists z : Z, eval_constant (slot_ident s) = Some z /\ z = slot_index s)
  /\ (forall s : BindingSlot, eval_constant (slot_ident s) <> None)
  /\ (forall s : BindingSlot, slot_ident s ∈ map fst header_constants)
  /\ NoDup (map fst header_constants).
Proof.
  split; [|split; [|split]].
  - intros s. exists (slot_index s). split; [apply eval_constant_slot | reflexivity].
  - intros s. rewrite eval_constant_slot. discriminate.
  - apply slot_ident_declared.
  - rewrite header_constants_table. simpl.
    repeat (apply NoDup_cons; split;
            [rewrite ?not_elem_of_cons; repeat split; try discriminate; apply not_elem_of_nil|]).
    apply NoDup_nil_2.
Qed.

(** C10: the indices are [Vertices] = 0, [ViewportSize] = 1 and
    [BaseColor] = 0, in the typed view and as evaluated from the
    declarations. *)
Theorem slot_index_values :
  LiveViewVertexInputIndex_rawValue LiveViewVertexInputIndexVertices = 0
  /\ LiveViewVertexInputIndex_rawValue LiveViewVertexInputIndexViewportSize = 1
  /\ LiveViewTextureIndex_rawValue LiveViewTextureIndexBaseColor = 0
  /\ CEnum.enum_values LiveViewVertexInputIndex_decl
       = [ ("LiveViewVertexInputIndexVertices"%string, 0);
           ("LiveViewVertexInputIndexViewportSize"%string, 1) ]
  /\ CEnum.enum_values LiveViewTextureIndex_decl
       = [ ("LiveViewTextureIndexBaseColor"%string, 0) ]
  /\ map (fun s => eval_constant (slot_ident s)) all_slots = [Some 0; Some 1; Some 0].
Proof.
  repeat split.
Qed.

(** ** The viewport transform *)

Local Open Scope Qc_scope.

Lemma Qc_of_Z_1 : Qc_of_Z 1 = 1.
Proof. apply Qc_is_canon. reflexivity. Qed.

Lemma Qc_of_Z_m1 : Qc_of_Z (-1) = - 1.
Proof. apply Qc_is_canon. reflexivity. Qed.

Lemma Qc_two_nonzero : (2 : Qc) <> 0.
Proof. intros H. apply (f_equal this) in H. vm_compute in H. discriminate. Qed.




(** C2: for every viewport W×H with W > 0 and H > 0 the vertex at pixel
    position (W/2, H/2) maps to the normalized device coordinate (1, 1) and
    the vertex at (-W/2, -H/2) maps to (-1, -1). *)
Theorem viewport_corner_to_ndc (W H : Qc) :
  0 < W -> 0 < H ->
  normalizedDeviceCoordinate (Vector_float2 W H) (Vector_float2 (W / 2) (H / 2))
    = float2 1 1
  /\ normalizedDeviceCoordinate (Vector_float2 W H) (Vector_float2 (- W / 2) (- H / 2))
    = float2 (-1) (-1).
Proof.
  intros HW HH.
  assert (HWne : W <> 0) by (apply not_eq_sym, Qclt_not_eq, HW).
  assert (HHne : H <> 0) by (apply not_eq_sym, Qclt_not_eq, HH).
  pose proof Qc_two_nonzero as H2.
  unfold normalizedDeviceCoordinate, normalizedDeviceCoordinate_in, float2. simpl.
  rewrite Qc_of_Z_1, Qc_of_Z_m1.
  split; f_equal; field; auto.
Qed.

Lemma viewport_corner_to_ndc_witness :
  normalizedDeviceCoordinate (float2 1024 768) (Vector_float2 (Qc_of_Z 1024 / 2) (Qc_of_Z 768 / 2))
    = float2 1 1
  /\ normalizedDeviceCoordinate (float2 1024 768)
       (Vector_float2 (- Qc_of_Z 1024 / 2) (- Qc_of_Z 768 / 2))
    = float2 (-1) (-1).
Proof.
  apply (viewport_corner_to_ndc (Qc_of_Z 1024) (Qc_of_Z 768)); reflexivity.
Defined.

(** The quad recomputed from the viewport always lands on the corners of the
    drawable. *)
Lemma full_viewport_quad_fills (W H : Qc) :
  0 < W -> 0 < H ->
  rendered_corners (Vector_float2 W H) (full_viewport_quad (Vector_float2 W H))
    = drawable_corners.
Proof.
  intros HW HH.
  assert (HWne : W <> 0) by (apply not_eq_sym, Qclt_not_eq, HW).
  assert (HHne : H <> 0) by (apply not_eq_sym, Qclt_not_eq, HH).
  pose proof Qc_two_nonzero as H2.
  unfold rendered_corners, full_viewport_quad, quad_corners, drawable_corners,
    normalizedDeviceCoordinate, normalizedDeviceCoordinate_in, float2.
  simpl. rewrite Qc_of_Z_1, Qc_of_Z_m1.
  repeat f_equal; field; auto.
Qed.

(** C6: viewport 800×600 and quad corners (±400, ±300) with texture
    coordinates (0,0), (1,0), (0,1), (1,1): the corners land on the corners
    (±1, ±1) of the drawable, so the quad fills it, and each keeps its texture
    coordinate, so the corners of the frame land on the corners of the
    drawable: across the drawable the texture coordinate is the same affine
    function of the position on both axes (no scaling, no stretching). *)
Theorem quad_800x600_fills_drawable :
  map (vertex_stage (float2 800 600)) (quad_corners (Qc_of_Z 400) (Qc_of_Z 300))
    = [ (float2 (-1) (-1), float2 0 0); (float2 1 (-1), float2 1 0);
        (float2 (-1) 1, float2 0 1); (float2 1 1, float2 1 1) ]
  /\ rendered_corners (float2 800 600) (quad_corners (Qc_of_Z 400) (Qc_of_Z 300))
       = drawable_corners
  /\ map textureCoordinate (quad_corners (Qc_of_Z 400) (Qc_of_Z 300)) = texture_corners
  /\ quad_corners (Qc_of_Z 400) (Qc_of_Z 300) = full_viewport_quad (float2 800 600)
  /\ Forall (fun pt => vx (snd pt) = (vx (fst pt) + 1) / 2 /\ vy (snd pt) = (vy (fst pt) + 1) / 2)
       (map (vertex_stage (float2 800 600)) (quad_corners (Qc_of_Z 400) (Qc_of_Z 300))).
Proof.
  assert (Hquad : quad_corners (Qc_of_Z 400) (Qc_of_Z 300) = full_viewport_quad (float2 800 600)).
  { unfold full_viewport_quad, float2. simpl.
    replace (Qc_of_Z 800 / 2) with (Qc_of_Z 400) by qc_eval.
    replace (Qc_of_Z 600 / 2) with (Qc_of_Z 300) by qc_eval.
    reflexivity. }
  assert (Hfill : rendered_corners (float2 800 600) (quad_corners (Qc_of_Z 400) (Qc_of_Z 300))
                  = drawable_corners).
  { rewrite Hquad. apply full_viewport_quad_fills; reflexivity. }
  assert (Hstage : map (vertex_stage (float2 800 600)) (quad_corners (Qc_of_Z 400) (Qc_of_Z 300))
    = [ (float2 (-1) (-1), float2 0 0); (float2 1 (-1), float2 1 0);
        (float2 (-1) 1, float2 0 1); (float2 1 1, float2 1 1) ]).
  { unfold vertex_stage, quad_corners, normalizedDeviceCoordinate, normalizedDeviceCoordinate_in, float2. simpl.
    repeat f_equal; qc_eval. }
  split; [exact Hstage|]. split; [exact Hfill|]. split; [reflexivity|]. split; [exact Hquad|].
  rewrite Hstage. repeat constructor; simpl; qc_eval.
Qed.




Local Close Scope Qc_scope.

(** ** The transform in binary32 *)

Lemma binary32_axes_land :
  forallb Binary32.axis_lands (seqZ 1 Binary32.max_extent) = true.
Proof. vm_compute. reflexivity. Qed.

(** With the rounding of [float]: for every viewport of whole extents up to
    4096 pixels the corner (w/2, h/2) lands on exactly (1, 1) and
    (-w/2, -h/2) on exactly (-1, -1). *)
Lemma binary32_corner_to_ndc (w h : Z) :
  1 <= w <= Binary32.max_extent ->
  1 <= h <= Binary32.max_extent ->
  Binary32.normalizedDeviceCoordinate (Binary32.float2 w h)
      (Vector_float2 (Binary32.half w) (Binary32.half h))
    = Binary32.float2 1 1
  /\ Binary32.normalizedDeviceCoordinate (Binary32.float2 w h)
      (Vector_float2 (SFopp (Binary32.half w)) (SFopp (Binary32.half h)))
    = Binary32.float2 (-1) (-1).
Proof.
  intros Hw Hh.
  assert (Haxis : forall z, 1 <= z <= Binary32.max_extent -> Binary32.axis_lands z = true).
  { intros z Hz. pose proof binary32_axes_land as Hall.
    rewrite forallb_forall in Hall. apply Hall.
    apply list_elem_of_In, elem_of_seqZ. lia. }
  pose proof (Haxis w Hw) as Hwl. pose proof (Haxis h Hh) as Hhl.
  unfold Binary32.axis_lands in Hwl, Hhl.
  apply andb_true_iff in Hwl as [Hw1 Hw2]. apply andb_true_iff in Hhl as [Hh1 Hh2].
  apply bool_decide_eq_true in Hw1, Hw2, Hh1, Hh2.
  unfold Binary32.normalizedDeviceCoordinate, normalizedDeviceCoordinate_in, Binary32.float2.
  cbn [vx vy]. fold (Binary32.half w) (Binary32.half h).
  rewrite Hw1, Hw2, Hh1, Hh2. split; reflexivity.
Qed.

(** The two scenarios in binary32: at 800×600 the corners (±400, ±300) land
    on (±1, ±1); at 400×300 the same positions would land on (±2, ±2), and
    the corners recomputed for that viewport, (±200, ±150), land on
    (±1, ±1). *)
Lemma binary32_scenarios :
  map (Binary32.normalizedDeviceCoordinate (Binary32.float2 800 600))
      [ Binary32.float2 (-400) (-300); Binary32.float2 400 (-300);
        Binary32.float2 (-400) 300; Binary32.float2 400 300 ]
    = [ Binary32.float2 (-1) (-1); Binary32.float2 1 (-1);
        Binary32.float2 (-1) 1; Binary32.float2 1 1 ]
  /\ map (Binary32.normalizedDeviceCoordinate (Binary32.float2 400 300))
      [ Binary32.float2 (-400) (-300); Binary32.float2 400 (-300);
        Binary32.float2 (-400) 300; Binary32.float2 400 300 ]
    = [ Binary32.float2 (-2) (-2); Binary32.float2 2 (-2);
        Binary32.float2 (-2) 2; Binary32.float2 2 2 ]
  /\ map (Binary32.normalizedDeviceCoordinate (Binary32.float2 400 300))
      [ Binary32.float2 (-200) (-150); Binary32.float2 200 (-150);
        Binary32.float2 (-200) 150; Binary32.float2 200 150 ]
    = [ Binary32.float2 (-1) (-1); Binary32.float2 1 (-1);
        Binary32.float2 (-1) 1; Binary32.float2 1 1 ].
Proof. repeat split; vm_compute; reflexivity. Qed.

(** ** Arrays of vertices *)

Section VertexArrayLemmas.

Context {scalar : Type}.

Implicit Types (v : LiveViewVertex scalar) (vs : list (LiveViewVertex scalar)).

(** The layout with an alignment that is positive and divides 8. *)
Lemma LiveViewVertex_offsets_valid (a : Z) :
  0 < a -> (a | 8) ->
  LiveViewVertex_offset a "position" = 0
  /\ LiveViewVertex_offset a "textureCoordinate" = 8
  /\ LiveViewVertex_stride a = 16.
Proof.
  intros Hpos Hdiv.
  assert (H0 : CLayout.align_up 0 a = 0)
    by (apply align_up_multiple; [assumption | apply Z.divide_0_r]).
  assert (H8 : CLayout.align_up 8 a = 8) by (apply align_up_multiple; assumption).
  assert (H16 : CLayout.align_up 16 a = 16).
  { apply align_up_multiple; [assumption|].
    apply Z.divide_trans with 8; [assumption | exists 2; reflexivity]. }
  assert (Hoffs : CLayout.member_offsets (LiveViewVertex_members a) =
                  [("position"%string, 0); ("textureCoordinate"%string, 8)]).
  { unfold CLayout.member_offsets, LiveViewVertex_members. simpl.
    rewrite H0. change (0 + 2 * 4) with 8. rewrite H8. reflexivity. }
  unfold LiveViewVertex_offset. rewrite Hoffs. repeat split.
  unfold LiveViewVertex_stride, CLayout.array_stride, CLayout.struct_type,
    CLayout.struct_sizeof. cbn [CLayout.sizeof].
  replace (CLayout.struct_alignof (LiveViewVertex_members a)) with a
    by (unfold LiveViewVertex_members, CLayout.struct_alignof; simpl; lia).
  unfold LiveViewVertex_members. simpl.
  rewrite H0. change (0 + 2 * 4) with 8. rewrite H8. exact H16.
Qed.

Lemma LiveViewVertex_image_at_valid (a base : Z) v :
  0 < a -> (a | 8) ->
  LiveViewVertex_image_at a base v =
    [ (base + 0, vx (position v)); (base + 4, vy (position v));
      (base + 8, vx (textureCoordinate v)); (base + 12, vy (textureCoordinate v)) ].
Proof.
  intros Hpos Hdiv.
  destruct (LiveViewVertex_offsets_valid a Hpos Hdiv) as (Hp & Ht & _).
  unfold LiveViewVertex_image_at, LiveViewVertex_image, vector_float2_image.
  rewrite Hp, Ht. reflexivity.
Qed.

Lemma vertexArray_image_from_cons (a base : Z) v vs :
  0 < a -> (a | 8) ->
  vertexArray_image_from a base (v :: vs) =
    (base + 0, vx (position v)) :: (base + 4, vy (position v))
    :: (base + 8, vx (textureCoordinate v)) :: (base + 12, vy (textureCoordinate v))
    :: vertexArray_image_from a (base + 16) vs.
Proof.
  intros Hpos Hdiv. cbn [vertexArray_image_from].
  rewrite (LiveViewVertex_image_at_valid a base v Hpos Hdiv).
  destruct (LiveViewVertex_offsets_valid a Hpos Hdiv) as (_ & _ & ->).
  reflexivity.
Qed.

End VertexArrayLemmas.

Lemma vertexArray_image_from_keys {scalar : Type} (a : Z)
    (vs : list (LiveViewVertex scalar)) (base : Z) :
  0 < a -> (a | 8) ->
  map fst (vertexArray_image_from a base vs)
    = map (fun j : nat => base + 4 * Z.of_nat j) (seq 0 (4 * length vs)).
Proof.
  intros Hpos Hdiv. revert base. induction vs as [|v vs IH]; intros base.
  - reflexivity.
  - rewrite vertexArray_image_from_cons by assumption.
    replace (4 * length (v :: vs))%nat with (4 + 4 * length vs)%nat by (simpl; lia).
    rewrite seq_app. cbn [map fst seq app Nat.add].
    rewrite IH. do 4 (apply (f_equal2 cons); [lia|]).
    replace (seq 4 (4 * length vs)) with (Nat.add 4 <$> seq 0 (4 * length vs))
      by apply (fmap_add_seq 4 0).
    rewrite <- list_fmap_compose. apply list_fmap_ext.
    intros _ j _. simpl. lia.
Qed.

Lemma vertexArray_image_from_app {scalar : Type} (a : Z)
    (vs ws : list (LiveViewVertex scalar)) (base : Z) :
  0 < a -> (a | 8) ->
  vertexArray_image_from a base (vs ++ ws)
    = vertexArray_image_from a base vs
      ++ vertexArray_image_from a (base + 16 * Z.of_nat (length vs)) ws.
Proof.
  intros Hpos Hdiv. revert base. induction vs as [|v vs IH]; intros base.
  - simpl. f_equal. lia.
  - rewrite <- app_comm_cons. rewrite !vertexArray_image_from_cons by assumption.
    rewrite IH. simpl length. rewrite <- !app_comm_cons.
    replace (base + 16 * Z.of_nat (S (length vs)))
      with (base + 16 + 16 * Z.of_nat (length vs)) by lia.
    reflexivity.
Qed.

Lemma store_lanes_cons {scalar : Type} (lane : Z * scalar) (img : list (Z * scalar))
    (mem : Z -> scalar) :
  store_lanes (lane :: img) mem = store_lanes img (store_lane mem lane).
Proof. reflexivity. Qed.

(** A store changes no offset other than those of the lanes stored. *)
Lemma store_lanes_outside {scalar : Type} (img : list (Z * scalar)) (mem : Z -> scalar)
    (off : Z) :
  off ∉ map fst img -> store_lanes img mem off = mem off.
Proof.
  revert mem. induction img as [|[o x] img IH]; intros mem Hout.
  - reflexivity.
  - apply not_elem_of_cons in Hout as [Hne Hout].
    rewrite store_lanes_cons, IH by exact Hout.
    unfold store_lane. cbn [fst snd].
    destruct (decide (off = o)); [contradiction | reflexivity].
Qed.

(** Every lane of a stored array lies inside the array. *)
Lemma vertexArray_image_from_inside {scalar : Type} (a : Z)
    (vs : list (LiveViewVertex scalar)) (base off : Z) :
  0 < a -> (a | 8) ->
  off ∈ map fst (vertexArray_image_from a base vs) ->
  base <= off < base + 16 * Z.of_nat (length vs).
Proof.
  intros Hpos Hdiv Hin.
  rewrite vertexArray_image_from_keys in Hin by assumption.
  apply list_elem_of_fmap in Hin as (j & -> & Hj).
  apply elem_of_seq in Hj. lia.
Qed.

Lemma LiveViewVertex_load_at {scalar : Type} (a a' : Z)
    (vs : list (LiveViewVertex scalar)) (base : Z) (mem : Z -> scalar)
    (k : nat) (v : LiveViewVertex scalar) :
  0 < a -> (a | 8) -> 0 < a' -> (a' | 8) ->
  vs !! k = Some v ->
  LiveViewVertex_load a' (base + 16 * Z.of_nat k)
    (store_lanes (vertexArray_image_from a base vs) mem) = v.
Proof.
  intros Hpos Hdiv Hpos' Hdiv'.
  destruct (@LiveViewVertex_offsets_valid a' Hpos' Hdiv') as (Hp & Ht & _).
  revert base mem k v. induction vs as [|v0 vs IH]; intros base mem k v Hk.
  - destruct k; discriminate Hk.
  - rewrite vertexArray_image_from_cons by assumption.
    rewrite !store_lanes_cons.
    destruct k as [|k].
    + injection Hk as <-.
      assert (Hrest : forall c, 0 <= c < 16 ->
                base + c ∉ map fst (vertexArray_image_from a (base + 16) vs)).
      { intros c Hc Hin.
        apply vertexArray_image_from_inside in Hin; [lia | assumption | assumption]. }
      unfold LiveViewVertex_load, vector_float2_load. rewrite Hp, Ht.
      change (CLayout.sizeof CLayout.float) with 4.
      replace (base + 16 * Z.of_nat 0 + 0) with (base + 0) by lia.
      replace (base + 16 * Z.of_nat 0 + 8) with (base + 8) by lia.
      replace (base + 0 + 4) with (base + 4) by lia.
      replace (base + 8 + 4) with (base + 12) by lia.
      rewrite !store_lanes_outside by (apply Hrest; lia).
      unfold store_lane. cbn [fst snd].
      destruct v0 as [[px py] [tx ty]]. cbn [position textureCoordinate vx vy].
      repeat (destruct (decide _); try (exfalso; lia)).
      reflexivity.
    + replace (base + 16 * Z.of_nat (S k)) with (base + 16 + 16 * Z.of_nat k) by lia.
      apply IH. exact Hk.
Qed.

(** X1: the host stores an array of vertices with its alignment of
    [vector_float2] and the shader reads [vertexArray[k]] with its own:
    for every index inside the array the shader reads the k-th vertex the
    host stored, wherever the array lies and whatever lies next to it. *)
Theorem vertexArray_round_trip {scalar : Type} (host_align shader_align : Z)
    (vs : list (LiveViewVertex scalar)) (mem : Z -> scalar) (base : Z)
    (k : nat) (v : LiveViewVertex scalar) :
  0 < host_align -> (host_align | 8) ->
  0 < shader_align -> (shader_align | 8) ->
  vs !! k = Some v ->
  vertexArray_load shader_align
    (store_lanes (vertexArray_image_from host_align base vs) mem) base (Z.of_nat k) = v.
Proof.
  intros Hh Hhd Hs Hsd Hk.
  destruct (@LiveViewVertex_offsets_valid shader_align Hs Hsd) as (_ & _ & Hstride).
  unfold vertexArray_load. rewrite Hstride.
  replace (base + Z.of_nat k * 16) with (base + 16 * Z.of_nat k) by lia.
  apply (LiveViewVertex_load_at host_align); assumption.
Qed.

Lemma vertexArray_round_trip_witness :
  vertexArray_load 8
    (store_lanes
       (vertexArray_image_from 4 64
          [ MkLiveViewVertex (Vector_float2 (-400) (-300)) (Vector_float2 0 0);
            MkLiveViewVertex (Vector_float2 400 300) (Vector_float2 1 1) ])
       (fun _ => -99))
    64 (Z.of_nat 1)
  = MkLiveViewVertex (Vector_float2 400 300) (Vector_float2 1 1).
Proof.
  apply (vertexArray_round_trip 4 8
           [ MkLiveViewVertex (Vector_float2 (-400) (-300)) (Vector_float2 0 0);
             MkLiveViewVertex (Vector_float2 400 300) (Vector_float2 1 1) ]
           (fun _ => -99) 64 1).
  - lia.
  - exists 2. reflexivity.
  - lia.
  - exists 1. reflexivity.
  - reflexivity.
Defined.



(** X3: the stored array is a gap-free run of floats: n vertices occupy the byte
    offsets 0, 4, 8, ..., 16n - 4, each once, in that order. *)
Theorem vertexArray_image_packed {scalar : Type} (a : Z)
    (vs : list (LiveViewVertex scalar)) :
  0 < a -> (a | 8) ->
  map fst (vertexArray_image a vs)
    = map (fun j : nat => 4 * Z.of_nat j) (seq 0 (4 * length vs)).
Proof.
  intros Hpos Hdiv. unfold vertexArray_image.
  rewrite vertexArray_image_from_keys by assumption.
  apply list_fmap_ext. intros _ j _. lia.
Qed.

Lemma vertexArray_image_packed_witness :
  map fst (vertexArray_image 8
             [ MkLiveViewVertex (Vector_float2 1 2) (Vector_float2 3 4);
               MkLiveViewVertex (Vector_float2 5 6) (Vector_float2 7 8) ])
    = map (fun j : nat => 4 * Z.of_nat j) (seq 0 (4 * 2)).
Proof.
  apply (vertexArray_image_packed 8
           [ MkLiveViewVertex (Vector_float2 1 2) (Vector_float2 3 4);
             MkLiveViewVertex (Vector_float2 5 6) (Vector_float2 7 8) ]).
  - lia.
  - exists 1. reflexivity.
Defined.

(** X4: appending vertices leaves the stored ones where they are: the image
    of [vs ++ ws] is the image of [vs] followed by the image of [ws] placed
    16 bytes per vertex of [vs] further on. *)
Theorem vertexArray_image_app {scalar : Type} (a : Z)
    (vs ws : list (LiveViewVertex scalar)) :
  0 < a -> (a | 8) ->
  vertexArray_image a (vs ++ ws)
    = vertexArray_image a vs
      ++ vertexArray_image_from a (16 * Z.of_nat (length vs)) ws.
Proof.
  intros Hpos Hdiv.
  unfold vertexArray_image. rewrite vertexArray_image_from_app by assumption.
  reflexivity.
Qed.

Lemma vertexArray_image_app_witness :
  vertexArray_image 8
    ([ MkLiveViewVertex (Vector_float2 1 2) (Vector_float2 3 4) ]
     ++ [ MkLiveViewVertex (Vector_float2 5 6) (Vector_float2 7 8) ])
  = vertexArray_image 8 [ MkLiveViewVertex (Vector_float2 1 2) (Vector_float2 3 4) ]
    ++ vertexArray_image_from 8 (16 * Z.of_nat 1)
         [ MkLiveViewVertex (Vector_float2 5 6) (Vector_float2 7 8) ].
Proof.
  apply (vertexArray_image_app 8
           [ MkLiveViewVertex (Vector_float2 1 2) (Vector_float2 3 4) ]
           [ MkLiveViewVertex (Vector_float2 5 6) (Vector_float2 7 8) ]).
  - lia.
  - exists 1. reflexivity.
Defined.

(** X5: in an array of vertices that starts at an aligned address, every member
    of every element is aligned as its type asks: the stride and the member
    offsets are multiples of the alignment of [vector_float2]. *)
Theorem vertexArray_members_aligned (a base k : Z) (m : CLayout.member) :
  0 < a -> (a | 8) -> (a | base) ->
  m ∈ LiveViewVertex_members a ->
  (CLayout.alignof (CLayout.member_type m)
   | base + k * LiveViewVertex_stride a + LiveViewVertex_offset a (CLayout.member_name m)).
Proof.
  intros Hpos Hdiv Hbase Hm.
  destruct (@LiveViewVertex_offsets_valid a Hpos Hdiv) as (Hp & Ht & Hstride).
  rewrite Hstride.
  assert (H16 : (a | k * 16)).
  { apply Z.divide_trans with 8; [assumption | exists (2 * k); lia]. }
  unfold LiveViewVertex_members in Hm.
  apply elem_of_cons in Hm as [->|Hm]; [|apply list_elem_of_singleton in Hm as ->];
    cbn [CLayout.member_type CLayout.member_name vector_float2_ctype CLayout.vector
         CLayout.alignof].
  - rewrite Hp. rewrite Z.add_0_r. apply Z.divide_add_r; assumption.
  - rewrite Ht. repeat apply Z.divide_add_r; assumption.
Qed.

Lemma vertexArray_members_aligned_witness :
  (CLayout.alignof (CLayout.member_type (CLayout.Member "textureCoordinate" (vector_float2_ctype 8)))
   | 64 + 3 * LiveViewVertex_stride 8 + LiveViewVertex_offset 8 "textureCoordinate").
Proof.
  apply (vertexArray_members_aligned 8 64 3
           (CLayout.Member "textureCoordinate" (vector_float2_ctype 8))).
  - lia.
  - exists 1. reflexivity.
  - exists 8. reflexivity.
  - right. left.
Defined.

(** ** The include guard *)

Lemma include_defines_guard (include_simd : Preprocessor.unit_state -> Preprocessor.unit_state)
    (st : Preprocessor.unit_state) :
  (forall u, Preprocessor.guard ∈ Preprocessor.macros u ->
             Preprocessor.guard ∈ Preprocessor.macros (include_simd u)) ->
  Preprocessor.guard
    ∈ Preprocessor.macros (Preprocessor.include_LiveViewShaderTypes include_simd st).
Proof.
  intros Hkeeps. unfold Preprocessor.include_LiveViewShaderTypes.
  destruct (decide (Preprocessor.guard ∈ Preprocessor.macros st)) as [Hin|Hout].
  - exact Hin.
  - cbn [Preprocessor.macros]. apply Hkeeps. cbn [Preprocessor.macros]. set_solver.
Qed.

(** X6: including the header again changes nothing: as long as <simd/simd.h>
    leaves the guard defined, any number of inclusions after the first leaves
    the unit as the first one left it, so the enumerations and the structure
    are declared once. *)
Theorem include_guard_idempotent
    (include_simd : Preprocessor.unit_state -> Preprocessor.unit_state)
    (st : Preprocessor.unit_state) (n : nat) :
  (forall u, Preprocessor.guard ∈ Preprocessor.macros u ->
             Preprocessor.guard ∈ Preprocessor.macros (include_simd u)) ->
  Nat.iter (S n) (Preprocessor.include_LiveViewShaderTypes include_simd) st
    = Preprocessor.include_LiveViewShaderTypes include_simd st.
Proof.
  intros Hkeeps. induction n as [|n IH].
  - reflexivity.
  - change (Nat.iter (S (S n)) (Preprocessor.include_LiveViewShaderTypes include_simd) st)
      with (Preprocessor.include_LiveViewShaderTypes include_simd
              (Nat.iter (S n) (Preprocessor.include_LiveViewShaderTypes include_simd) st)).
    rewrite IH.
    pose proof (include_defines_guard include_simd st Hkeeps) as Hguard.
    unfold Preprocessor.include_LiveViewShaderTypes at 1.
    destruct (decide _) as [_|Hout]; [reflexivity | contradiction].
Qed.

Lemma include_guard_idempotent_witness :
  Nat.iter 3 (Preprocessor.include_LiveViewShaderTypes
                (fun u => Preprocessor.UnitState ({["__SIMD_HEADER__"%string]} ∪ Preprocessor.macros u)
                            (Preprocessor.constants u) (Preprocessor.typedefs u)))
      (Preprocessor.UnitState ∅ [] [])
  = Preprocessor.include_LiveViewShaderTypes
      (fun u => Preprocessor.UnitState ({["__SIMD_HEADER__"%string]} ∪ Preprocessor.macros u)
                  (Preprocessor.constants u) (Preprocessor.typedefs u))
      (Preprocessor.UnitState ∅ [] []).
Proof.
  apply (include_guard_idempotent
           (fun u => Preprocessor.UnitState ({["__SIMD_HEADER__"%string]} ∪ Preprocessor.macros u)
                       (Preprocessor.constants u) (Preprocessor.typedefs u))
           (Preprocessor.UnitState ∅ [] []) 2).
  intros u Hu. simpl. apply elem_of_union. right. exact Hu.
Defined.
